(** * The "Runtime Developer" page of the Substrate developer hub

    A shallow embedding of [website/pages/en/who/runtime-developer.js]:
    the React component [RuntimeDeveloper], whose [render] method reads
    the site configuration and the language from [this.props], builds the
    URL helpers [docUrl] and [pageUrl], and returns a tree of React
    elements (a hero banner followed by a timeline of five entries).

    JavaScript strings are modelled as [string]; a destructured property
    that may be absent ([language]) is an [option string], [None] standing
    for [undefined].  The React element tree is an inductive type; the
    components this file only imports ([HomeSplash], [Timeline],
    [Timespot], [Container], [Button]) stay element nodes with their props,
    while the function component the file defines itself
    ([RuntimeDeveloperTimeline]) is expanded in place. *)

From Stdlib Require Import String Ascii List ZArith Bool Lia.
Import ListNotations.
Open Scope list_scope.
Open Scope string_scope.

Set Warnings "-register-all".

(** ** JavaScript values used by the page *)

(** [s ? a : b] on a string: only the empty string is falsy. *)
Definition truthy (s : string) : bool :=
  match s with
  | EmptyString => false
  | String _ _ => true
  end.

(** The double quote character, which appears inside one paragraph. *)
Definition dquote : string := String (ascii_of_nat 34) EmptyString.

(** [siteConfig]: the two fields the page destructures. *)
Record SiteConfig : Type := mkSiteConfig {
  baseUrl : string;
  docsUrl : string
}.

(** [this.props]: [config] and the optional [language]. *)
Record Props : Type := mkProps {
  config : SiteConfig;
  language : option string
}.

(** Destructuring with a default, [{ language = "" }]: the default is
    taken exactly when the property is [undefined]. *)
Definition with_default (d : string) (v : option string) : string :=
  match v with
  | Some s => s
  | None => d
  end.

(** ** React elements *)

Inductive tag : Type :=
  | Div | H3 | P | Code
  | HomeSplash | Timeline | Timespot | Container | Button.

Definition tag_eq_dec (a b : tag) : {a = b} + {a <> b}.
Proof. decide equality. Defined.

Definition tag_eqb (a b : tag) : bool :=
  if tag_eq_dec a b then true else false.

(** A prop passed to an element. *)
Inductive attr : Type :=
  | AStr (s : string)
  | ANum (z : Z)
  | AConfig (c : SiteConfig).

Inductive node : Type :=
  | Text (s : string)
  | Element (t : tag) (attrs : list (string * attr)) (children : list node).

Fixpoint lookup_attr (k : string) (l : list (string * attr)) : option attr :=
  match l with
  | [] => None
  | (k', v) :: l' => if String.eqb k k' then Some v else lookup_attr k l'
  end.

(** ** The URL helpers (lines 30-33) *)

Definition docsPart (docs : string) : string :=
  if truthy docs then docs ++ "/" else "".

Definition langPart (lang : string) : string :=
  if truthy lang then lang ++ "/" else "".

(** [doc => `${baseUrl}${docsPart}${langPart}${doc}`], with the variables
    the closure captures as parameters. *)
Definition docUrl (base docs lang : string) (doc : string) : string :=
  base ++ docsPart docs ++ langPart lang ++ doc.

(** [page => baseUrl + (language ? `${language}/` : "") + page]. *)
Definition pageUrl (base lang : string) (page : string) : string :=
  (base ++ (if truthy lang then lang ++ "/" else "")) ++ page.

(** ** The timeline (lines 35-138) *)

Definition button (href : string) (label : string) : node :=
  Element Button
    [("variant", AStr "secondary");
     ("href", AStr href);
     ("className", AStr "m-1 primary-color")]
    [Text label].

Definition heading (title : string) : node :=
  Element H3 [("className", AStr "mt-3")] [Text title].

Definition RuntimeDeveloperTimeline (base docs lang : string) : node :=
  Element Timeline []
    [ Element Timespot []
        [ heading "It's dangerous to go alone!";
          Element P []
            [ Text ("Before you start your journey you should become familiar with " ++
                    "resources that can help you along the way. We have high level " ++
                    "documentation which can help clarify unknown terms or give you a " ++
                    "bigger picture about what Substrate is. We have a");
              Text " ";
              Element Code [] [Text "[substrate]"];
              Text (" StackOverflow tag which you can use to ask " ++
                    "technical questions or find existing answers. Finally we have a " ++
                    "friendly and technical chat room of developers who are happy to help " ++
                    "you at any point during your journey.") ];
          button (docUrl base docs lang "quickstart/getting-started")
                 "High Level Docs";
          button "https://stackoverflow.com/questions/tagged/substrate"
                 "StackOverflow";
          button "https://riot.im/app/#/room/!HzySYSaIhtyWrwiwEV:matrix.org"
                 "Riot Chat" ];
      Element Timespot []
        [ heading "Install Substrate";
          Element P []
            [ Text ("The first thing you need to do is set up Substrate on your computer! " ++
                    "The instructions vary depending on which operating system you use, " ++
                    "so take a look at the guide here to find the instructions that work " ++
                    "for you.") ];
          button (docUrl base docs lang "quickstart/installing-substrate")
                 "Installation Instructions" ];
      Element Timespot []
        [ heading "Substrate Collectables Workshop";
          Element P []
            [ Text ("Next follow our Substrate Collectables Workshop to get a deep dive " ++
                    "into runtime development. We will walk you through the end to end " ++
                    "process of building a non-fungible token DApp chain, running your " ++
                    "chain, and even building a user interface!") ];
          button "https://substrate-developer-hub.github.io/substrate-collectables-workshop/"
                 "Start the Workshop" ];
      Element Timespot []
        [ heading "Reference Level Documentation";
          Element P []
            [ Text ("Now that you are more familiar with Substrate and runtime " ++
                    "development, you can jump into the reference level documentation " ++
                    "which lives next to the core Substrate code. To start, you can try " ++
                    "investigating our Substrate Runtime Module Library (SRML) by " ++
                    "searching for " ++ dquote ++ "srml" ++ dquote ++
                    ". You should now be able to read the code which " ++
                    "powers these modules and extend your knowledge by looking at common " ++
                    "patterns found within them.") ];
          button "/rustdocs/v1.0/" "Reference Docs" ];
      Element Timespot []
        [ heading "Buidl";
          Element P []
            [ Text ("You are now ready to start building your own Runtime logic! Do not " ++
                    "forget about the community and documentation resources that we have " ++
                    "equipped you with on this journey.") ];
          button base "Back to Home" ] ].

(** ** The component and its [render] method (lines 26-155)

    [render] is a method: it runs against the component instance and the
    rest of the JavaScript world.  The store holds what the method could
    reach: [this.props], [this.state], and everything outside the
    component (other heap objects, the network, the random source), kept
    abstract.  A computation takes a store and returns a value and the
    store it leaves behind. *)

Section Component.

Context {CompState World : Type}.

Record Store : Type := mkStore {
  this_props : Props;
  this_state : CompState;
  world : World
}.

Definition M (A : Type) : Type := Store -> A * Store.

Definition ret {A : Type} (a : A) : M A := fun s => (a, s).

Definition bind {A B : Type} (m : M A) (k : A -> M B) : M B :=
  fun s => let (a, s') := m s in k a s'.

(** Reading [this.props]. *)
Definition get_props : M Props := fun s => (this_props s, s).

Definition render : M node :=
  bind get_props (fun props =>
    let siteConfig := config props in
    let lang := with_default "" (language props) in
    let base := baseUrl siteConfig in
    let docs := docsUrl siteConfig in
    ret (Element Div []
           [ Element HomeSplash
               [("siteConfig", AConfig siteConfig);
                ("language", AStr lang);
                ("title", AStr "Runtime Developer");
                ("tagline", AStr "So you wanna build blockchains...");
                ("padding", ANum 0)]
               [];
             Element Container []
               [ RuntimeDeveloperTimeline base docs lang ] ])).

(** The element tree a render produces, and the store it leaves. *)
Definition rendered (s : Store) : node := fst (render s).
Definition store_after (s : Store) : Store := snd (render s).

End Component.

Arguments Store : clear implicits.
Arguments M : clear implicits.

(** The static members set after the class (lines 157-158). *)
Definition title : string := "Runtime Developer".
Definition description : string :=
  "Learn how you can develop custom runtimes with Substrate.".

(** ** Observing an element tree *)

(** Every element of the tree, in document order. *)
Fixpoint elements (n : node) : list node :=
  match n with
  | Text _ => []
  | Element _ _ children => n :: flat_map elements children
  end.

Definition tag_of (n : node) : option tag :=
  match n with
  | Text _ => None
  | Element t _ _ => Some t
  end.

Definition has_tag (t : tag) (n : node) : bool :=
  match n with
  | Text _ => false
  | Element t' _ _ => tag_eqb t t'
  end.

Definition attrs_of (n : node) : list (string * attr) :=
  match n with
  | Text _ => []
  | Element _ attrs _ => attrs
  end.

Definition children_of (n : node) : list node :=
  match n with
  | Text _ => []
  | Element _ _ children => children
  end.

(** The text content of a node: its text descendants, concatenated. *)
Fixpoint text_of (n : node) : string :=
  match n with
  | Text s => s
  | Element _ _ children => String.concat "" (map text_of children)
  end.

Definition href_of (n : node) : option attr := lookup_attr "href" (attrs_of n).

Definition opt_to_list {A : Type} (o : option A) : list A :=
  match o with
  | Some a => [a]
  | None => []
  end.

(** Every hyperlink target of the tree, in document order: the [href]
    prop of each element that carries one. *)
Definition hrefs (n : node) : list attr :=
  flat_map (fun e => opt_to_list (href_of e)) (elements n).

(** The buttons of the tree, and the [href] of the first one with a
    given label. *)
Definition buttons (n : node) : list node := filter (has_tag Button) (elements n).

Definition button_href (label : string) (n : node) : option attr :=
  match find (fun b => String.eqb (text_of b) label) (buttons n) with
  | Some b => href_of b
  | None => None
  end.

(** The hero banners of the tree, and the [language] prop of the first. *)
Definition banners (n : node) : list node := filter (has_tag HomeSplash) (elements n).

Definition banner_language (n : node) : option attr :=
  match banners n with
  | b :: _ => lookup_attr "language" (attrs_of b)
  | [] => None
  end.

(** The timeline entries of a page, and what each one shows: the text of
    its headings, the text of its paragraphs, the labels of its buttons. *)
Definition entries (n : node) : list node := filter (has_tag Timespot) (elements n).

Definition child_texts (t : tag) (e : node) : list string :=
  map text_of (filter (has_tag t) (children_of e)).

Definition entry_content (e : node) : list string * list string * list string :=
  (child_texts H3 e, child_texts P e, child_texts Button e).

(** The shape of a timeline entry: a [Timespot] whose children are one
    heading, one paragraph, and then buttons only, each with a string
    [href]. *)
Definition url_button (b : node) : bool :=
  has_tag Button b &&
  match href_of b with
  | Some (AStr _) => true
  | _ => false
  end.

Definition entry_shape (e : node) : bool :=
  match e with
  | Element Timespot _ (h :: p :: bs) =>
      has_tag H3 h && has_tag P p && forallb url_button bs
  | _ => false
  end.

(** The shape of the page: a [div] holding one [HomeSplash] and then a
    [Container] around one [Timeline] of well-shaped entries; the entries
    are returned. *)
Definition page_entries (page : node) : option (list node) :=
  match page with
  | Element Div _
      [Element HomeSplash _ []; Element Container _ [Element Timeline _ es]] =>
      if forallb entry_shape es then Some es else None
  | _ => None
  end.

(** The headings of the five entries, in order. *)
Definition timeline_headings : list string :=
  [ "It's dangerous to go alone!";
    "Install Substrate";
    "Substrate Collectables Workshop";
    "Reference Level Documentation";
    "Buidl" ].

(** The link targets the page spells out literally. *)
Definition literal_urls : list string :=
  [ "https://stackoverflow.com/questions/tagged/substrate";
    "https://riot.im/app/#/room/!HzySYSaIhtyWrwiwEV:matrix.org";
    "https://substrate-developer-hub.github.io/substrate-collectables-workshop/";
    "/rustdocs/v1.0/" ].

(** ** The specification's reading of the documentation URL *)

(** The concatenation the specification gives for a documentation URL:
    the docs and language segments, each followed by a slash, are present
    exactly when they are not the empty string. *)
Definition doc_url_spec (c : SiteConfig) (lang path : string) : string :=
  baseUrl c
  ++ (if string_dec (docsUrl c) "" then "" else docsUrl c ++ "/")
  ++ (if string_dec lang "" then "" else lang ++ "/")
  ++ path.

(** A link target has the documentation form for a configuration and a
    language when it is [docUrl] of some relative path. *)
Definition doc_url_form (c : SiteConfig) (lang : string) (h : attr) : Prop :=
  exists path, h = AStr (docUrl (baseUrl c) (docsUrl c) lang path).

(** The forms the link targets of the page take: a documentation URL, the
    bare base URL, or one of the literal URLs. *)
Inductive href_form (c : SiteConfig) (lang : string) : attr -> Prop :=
  | href_doc : forall path,
      href_form c lang (AStr (docUrl (baseUrl c) (docsUrl c) lang path))
  | href_base : href_form c lang (AStr (baseUrl c))
  | href_literal : forall u, In u literal_urls -> href_form c lang (AStr u).

(** ** Sample inputs *)

Definition sample_config : SiteConfig := mkSiteConfig "/" "docs".

Definition sample_store : Store unit unit :=
  mkStore (mkProps sample_config (Some "en")) tt tt.

(** A component with no [language] prop, some state, and a world. *)
Definition bare_store : Store nat (list string) :=
  mkStore (mkProps sample_config None) 7 ["https://example.org/"].

(** A prop of the first hero banner of the tree. *)
Definition banner_attr (k : string) (n : node) : option attr :=
  match banners n with
  | b :: _ => lookup_attr k (attrs_of b)
  | [] => None
  end.

(** The same props as [bare_store] but for an empty [language]. *)
Definition empty_language_store : Store nat (list string) :=
  mkStore (mkProps sample_config (Some "")) 0 [].

(** Another site: a longer base URL, no docs segment, French. *)
Definition other_store : Store unit unit :=
  mkStore (mkProps (mkSiteConfig "/hub/" "") (Some "fr")) tt tt.

(** * Properties *)

Lemma truthy_nonempty (s : string) : truthy s = if string_dec s "" then false else true.
Proof.
  destruct s as [|a s]; simpl.
  - destruct (string_dec "" "") as [_|n]; [reflexivity | contradiction n; reflexivity].
  - destruct (string_dec (String a s) "") as [e|_]; [discriminate e | reflexivity].
Qed.

Lemma render_result {CompState World : Type} (s : Store CompState World) :
  render s =
  (Element Div []
     [ Element HomeSplash
         [("siteConfig", AConfig (config (this_props s)));
          ("language", AStr (with_default "" (language (this_props s))));
          ("title", AStr "Runtime Developer");
          ("tagline", AStr "So you wanna build blockchains...");
          ("padding", ANum 0)]
         [];
       Element Container []
         [ RuntimeDeveloperTimeline
             (baseUrl (config (this_props s)))
             (docsUrl (config (this_props s)))
             (with_default "" (language (this_props s))) ] ],
   s).
Proof. reflexivity. Qed.

Lemma hrefs_rendered {CompState World : Type} (s : Store CompState World) :
  let c := config (this_props s) in
  let lang := with_default "" (language (this_props s)) in
  hrefs (rendered s) =
  [ AStr (docUrl (baseUrl c) (docsUrl c) lang "quickstart/getting-started");
    AStr "https://stackoverflow.com/questions/tagged/substrate";
    AStr "https://riot.im/app/#/room/!HzySYSaIhtyWrwiwEV:matrix.org";
    AStr (docUrl (baseUrl c) (docsUrl c) lang "quickstart/installing-substrate");
    AStr "https://substrate-developer-hub.github.io/substrate-collectables-workshop/";
    AStr "/rustdocs/v1.0/";
    AStr (baseUrl c) ].
Proof. reflexivity. Qed.

(** The entries of the page are those of the timeline. *)
Lemma entries_rendered {CompState World : Type} (s : Store CompState World) :
  entries (rendered s) =
  entries (RuntimeDeveloperTimeline
             (baseUrl (config (this_props s)))
             (docsUrl (config (this_props s)))
             (with_default "" (language (this_props s)))).
Proof. unfold rendered. rewrite render_result. reflexivity. Qed.

(** What the timeline shows does not depend on the three values its
    closure captures. *)
Lemma timeline_content_static (base docs lang base' docs' lang' : string) :
  map entry_content (entries (RuntimeDeveloperTimeline base docs lang))
  = map entry_content (entries (RuntimeDeveloperTimeline base' docs' lang')).
Proof. reflexivity. Qed.

(** C1: for every configuration, language and relative path, the URL the
    [docUrl] helper builds is the base URL, then the docs URL and a slash
    when the docs URL is not empty, then the language and a slash when the
    language is not empty, then the path. *)
Theorem docUrl_is_concatenation (c : SiteConfig) (lang path : string) :
  docUrl (baseUrl c) (docsUrl c) lang path = doc_url_spec c lang path.
Proof.
  unfold docUrl, doc_url_spec, docsPart, langPart.
  rewrite !truthy_nonempty.
  destruct (string_dec (docsUrl c) ""), (string_dec lang ""); reflexivity.
Qed.

(** C2: with base URL "/", docs URL "docs" and language "en", the path
    "quickstart/getting-started" yields
    "/docs/en/quickstart/getting-started". *)
Theorem docUrl_example :
  docUrl "/" "docs" "en" "quickstart/getting-started"
  = "/docs/en/quickstart/getting-started".
Proof. reflexivity. Qed.

(** C3 as stated fails: with base URL "/", docs URL "docs" and language
    "en", not every link target of the rendered page is [docUrl] of some
    path; the StackOverflow button's target does not even start with the
    base URL. *)
Lemma hrefs_not_all_doc_urls :
  ~ Forall (doc_url_form sample_config "en") (hrefs (rendered sample_store)).
Proof.
  intro H.
  rewrite (hrefs_rendered sample_store) in H.
  inversion H as [|h0 t0 _ Htail]; subst.
  inversion Htail as [|h1 t1 Hso _]; subst.
  destruct Hso as [path Hpath].
  simpl in Hpath. discriminate Hpath.
Qed.

(** C3, amended: every link target of the rendered page is either a
    documentation URL ([docUrl] of a relative path, that is the base URL,
    the docs part, the language part and the path), or the bare base URL,
    or one of the four URLs the page spells out literally, which do not
    depend on the configuration. *)
Theorem hrefs_have_known_form {CompState World : Type} (s : Store CompState World) :
  Forall (href_form (config (this_props s))
                    (with_default "" (language (this_props s))))
         (hrefs (rendered s)).
Proof.
  rewrite hrefs_rendered.
  repeat first
    [ apply Forall_nil
    | apply Forall_cons
    | apply href_doc
    | apply href_base
    | apply href_literal; simpl; tauto ].
Qed.

(** C5: for every configuration the rendered page is one hero banner
    followed by the timeline, whose entries are the same five, in the
    same order; each entry has exactly one heading and one paragraph, and
    its remaining children are buttons, each carrying a URL. *)
Theorem page_structure {CompState World : Type} (s : Store CompState World) :
  exists es,
    page_entries (rendered s) = Some es
    /\ List.length (banners (rendered s)) = 1
    /\ map (child_texts H3) es = map (fun h => [h]) timeline_headings
    /\ Forall (fun e =>
                 List.length (child_texts H3 e) = 1
                 /\ List.length (child_texts P e) = 1
                 /\ forallb url_button (skipn 2 (children_of e)) = true) es.
Proof.
  eexists. split; [reflexivity|].
  split; [reflexivity|].
  split; [reflexivity|].
  repeat (apply Forall_cons; [repeat split|]).
  apply Forall_nil.
Qed.

(** C6: the headings, body texts and button labels of the timeline
    entries are the same for any two configurations and languages. *)
Theorem static_content_independent {CompState World : Type}
    (s1 s2 : Store CompState World) :
  map entry_content (entries (rendered s1))
  = map entry_content (entries (rendered s2)).
Proof.
  rewrite !entries_rendered.
  apply timeline_content_static.
Qed.

(** C7: a render leaves the store as it found it: the props (site
    configuration and language) and the component state are unchanged. *)
Theorem render_preserves_store {CompState World : Type} (s : Store CompState World) :
  store_after s = s
  /\ config (this_props (store_after s)) = config (this_props s)
  /\ language (this_props (store_after s)) = language (this_props s)
  /\ this_state (store_after s) = this_state s.
Proof.
  unfold store_after. rewrite render_result. simpl. repeat split.
Qed.

(** C8: when the [language] prop is absent or empty, rendering still
    produces the page, the language handed to the banner is the empty
    string, and [docUrl] leaves the language segment out for every path. *)
Theorem language_optional {CompState World : Type} (s : Store CompState World) :
  language (this_props s) = None \/ language (this_props s) = Some "" ->
  let c := config (this_props s) in
  let lang := with_default "" (language (this_props s)) in
  page_entries (rendered s) <> None
  /\ banner_language (rendered s) = Some (AStr "")
  /\ (forall path,
        docUrl (baseUrl c) (docsUrl c) lang path
        = baseUrl c ++ docsPart (docsUrl c) ++ path)
  /\ hd_error (hrefs (rendered s))
     = Some (AStr (baseUrl c ++ docsPart (docsUrl c) ++ "quickstart/getting-started")).
Proof.
  intros Hlang c lang.
  assert (Hempty : lang = "").
  { unfold lang. destruct Hlang as [-> | ->]; reflexivity. }
  split; [discriminate|].
  split.
  - unfold rendered. rewrite render_result. simpl.
    fold lang. rewrite Hempty. reflexivity.
  - split.
    + intro path. rewrite Hempty. reflexivity.
    + rewrite hrefs_rendered. simpl. fold c. fold lang.
      rewrite Hempty. reflexivity.
Qed.

Lemma language_optional_witness :
  (language (this_props bare_store) = None
   \/ language (this_props bare_store) = Some "")
  /\ banner_language (rendered bare_store) = Some (AStr "")
  /\ hd_error (hrefs (rendered bare_store))
     = Some (AStr "/docs/quickstart/getting-started").
Proof.
  split.
  - left. reflexivity.
  - destruct (language_optional bare_store (or_introl eq_refl))
      as (_ & Hbanner & _ & Hfirst).
    split; [exact Hbanner | exact Hfirst].
Defined.

(** C9: for every configuration the target of the "Back to Home" button
    is the base URL itself. *)
Theorem back_to_home_href {CompState World : Type} (s : Store CompState World) :
  button_href "Back to Home" (rendered s)
  = Some (AStr (baseUrl (config (this_props s)))).
Proof. reflexivity. Qed.

(** C10: for every configuration the target of the "Reference Docs"
    button is the constant "/rustdocs/v1.0/". *)
Theorem reference_docs_href {CompState World : Type} (s : Store CompState World) :
  button_href "Reference Docs" (rendered s) = Some (AStr "/rustdocs/v1.0/").
Proof. reflexivity. Qed.

(** * Further properties of the URL helpers *)

(** ** Facts about string concatenation *)

Lemma string_app_assoc (a b c : string) : (a ++ b) ++ c = a ++ b ++ c.
Proof.
  induction a as [|x a IH]; simpl.
  - reflexivity.
  - rewrite IH. reflexivity.
Qed.

Lemma string_app_nil_r (a : string) : a ++ "" = a.
Proof.
  induction a as [|x a IH]; simpl; [reflexivity | rewrite IH; reflexivity].
Qed.

Lemma string_length_app (a b : string) :
  String.length (a ++ b) = String.length a + String.length b.
Proof.
  induction a as [|x a IH]; simpl; [reflexivity | rewrite IH; reflexivity].
Qed.

Lemma string_app_cancel_l (a b c : string) : a ++ b = a ++ c -> b = c.
Proof.
  induction a as [|x a IH]; simpl; intro H.
  - exact H.
  - injection H as H. apply IH, H.
Qed.

Lemma string_app_cancel_r (c a b : string) : a ++ c = b ++ c -> a = b.
Proof.
  revert b.
  induction a as [|x a IH]; intros [|y b] H; simpl in H.
  - reflexivity.
  - apply (f_equal String.length) in H. simpl in H.
    rewrite string_length_app in H. lia.
  - apply (f_equal String.length) in H. simpl in H.
    rewrite string_length_app in H. lia.
  - injection H as Hxy H. subst y. f_equal. apply IH, H.
Qed.

Lemma string_prefix_app (a b : string) : String.prefix a (a ++ b) = true.
Proof.
  induction a as [|x a IH]; simpl.
  - destruct b; reflexivity.
  - destruct (ascii_dec x x) as [_|n]; [exact IH | contradiction n; reflexivity].
Qed.

(** A segment followed by its slash determines the segment: the slash is
    only added to a non-empty segment, so the empty segment is the only
    one that yields the empty string. *)
Lemma langPart_inj (a b : string) : langPart a = langPart b -> a = b.
Proof.
  unfold langPart.
  destruct a as [|x a], b as [|y b]; simpl; intro H.
  - reflexivity.
  - discriminate H.
  - discriminate H.
  - apply (string_app_cancel_r "/"). exact H.
Qed.

Lemma docsPart_inj (a b : string) : docsPart a = docsPart b -> a = b.
Proof. exact (langPart_inj a b). Qed.


(** ** [docUrl] and [pageUrl] *)

(** X1: [pageUrl] is [docUrl] without a docs segment.  The two segments
    are interchangeable when one is empty: a docs segment with no
    language gives the same URL as that segment used as the language. *)
Theorem pageUrl_is_docUrl_without_docs (base seg path : string) :
  pageUrl base seg path = docUrl base "" seg path
  /\ docUrl base seg "" path = docUrl base "" seg path.
Proof.
  unfold pageUrl, docUrl, docsPart, langPart. simpl.
  split.
  - apply string_app_assoc.
  - destruct (truthy seg); simpl.
    + rewrite string_app_assoc. reflexivity.
    + reflexivity.
Qed.

(** X2: the URL of a path is the URL of the empty path followed by the
    path, and extending a path extends its URL by the same suffix. *)
Theorem docUrl_extends_root (base docs lang path more : string) :
  docUrl base docs lang path = docUrl base docs lang "" ++ path
  /\ docUrl base docs lang (path ++ more) = docUrl base docs lang path ++ more.
Proof.
  unfold docUrl. split.
  - rewrite string_app_nil_r. rewrite !string_app_assoc. reflexivity.
  - rewrite !string_app_assoc. reflexivity.
Qed.

(** X3: every URL built by [docUrl] or [pageUrl] starts with the base
    URL. *)
Theorem urls_start_with_base (base docs lang path : string) :
  String.prefix base (docUrl base docs lang path) = true
  /\ String.prefix base (pageUrl base lang path) = true.
Proof.
  split.
  - unfold docUrl. apply string_prefix_app.
  - unfold pageUrl. rewrite string_app_assoc. apply string_prefix_app.
Qed.

(** X4: under one configuration and language, two paths with the same
    documentation URL are the same path. *)
Theorem docUrl_inj_path (base docs lang p q : string) :
  docUrl base docs lang p = docUrl base docs lang q -> p = q.
Proof.
  unfold docUrl. intro H.
  apply string_app_cancel_l in H.
  apply string_app_cancel_l in H.
  apply string_app_cancel_l in H.
  exact H.
Qed.

Lemma docUrl_inj_path_witness :
  docUrl "/" "docs" "en" "intro" = docUrl "/" "docs" "en" "intro"
  /\ "intro" = "intro".
Proof.
  split.
  - reflexivity.
  - apply (docUrl_inj_path "/" "docs" "en" "intro" "intro"). reflexivity.
Defined.

(** X5: for one base URL, docs URL and path, two languages with the same
    documentation URL are the same language; in particular a non-empty
    language never yields the URL of the absent one. *)
Theorem docUrl_inj_language (base docs l1 l2 path : string) :
  docUrl base docs l1 path = docUrl base docs l2 path -> l1 = l2.
Proof.
  unfold docUrl. intro H.
  apply string_app_cancel_l in H.
  apply string_app_cancel_l in H.
  apply string_app_cancel_r in H.
  apply langPart_inj, H.
Qed.

Lemma docUrl_inj_language_witness :
  docUrl "/" "docs" "en" "intro" = docUrl "/" "docs" "en" "intro"
  /\ "en" = "en".
Proof.
  split.
  - reflexivity.
  - apply (docUrl_inj_language "/" "docs" "en" "en" "intro"). reflexivity.
Defined.

(** X6: for one base URL, language and path, two docs URLs with the same
    documentation URL are the same docs URL. *)
Theorem docUrl_inj_docs (base d1 d2 lang path : string) :
  docUrl base d1 lang path = docUrl base d2 lang path -> d1 = d2.
Proof.
  unfold docUrl. intro H.
  apply string_app_cancel_l in H.
  rewrite <- !string_app_assoc in H.
  apply string_app_cancel_r in H.
  apply string_app_cancel_r in H.
  apply docsPart_inj, H.
Qed.

Lemma docUrl_inj_docs_witness :
  docUrl "/" "docs" "en" "intro" = docUrl "/" "docs" "en" "intro"
  /\ "docs" = "docs".
Proof.
  split.
  - reflexivity.
  - apply (docUrl_inj_docs "/" "docs" "docs" "en" "intro"). reflexivity.
Defined.


(** * Further properties of the rendered page *)

Lemma buttons_rendered {CompState World : Type} (s : Store CompState World) :
  let c := config (this_props s) in
  let lang := with_default "" (language (this_props s)) in
  buttons (rendered s) =
  [ button (docUrl (baseUrl c) (docsUrl c) lang "quickstart/getting-started")
           "High Level Docs";
    button "https://stackoverflow.com/questions/tagged/substrate" "StackOverflow";
    button "https://riot.im/app/#/room/!HzySYSaIhtyWrwiwEV:matrix.org" "Riot Chat";
    button (docUrl (baseUrl c) (docsUrl c) lang "quickstart/installing-substrate")
           "Installation Instructions";
    button "https://substrate-developer-hub.github.io/substrate-collectables-workshop/"
           "Start the Workshop";
    button "/rustdocs/v1.0/" "Reference Docs";
    button (baseUrl c) "Back to Home" ].
Proof. reflexivity. Qed.

Lemma find_button_cons (href label wanted : string) (rest : list node) :
  find (fun b => String.eqb (text_of b) wanted) (button href label :: rest)
  = if String.eqb label wanted then Some (button href label)
    else find (fun b => String.eqb (text_of b) wanted) rest.
Proof. reflexivity. Qed.

(** X8: a component whose [language] prop is absent and one whose
    [language] is the empty string, with the same site configuration,
    render the same element tree. *)
Theorem absent_language_renders_as_empty {CompState World : Type}
    (s1 s2 : Store CompState World) :
  config (this_props s1) = config (this_props s2) ->
  language (this_props s1) = None ->
  language (this_props s2) = Some "" ->
  rendered s1 = rendered s2.
Proof.
  intros Hc H1 H2.
  unfold rendered. rewrite !render_result. simpl.
  rewrite Hc, H1, H2. reflexivity.
Qed.

Lemma absent_language_renders_as_empty_witness :
  config (this_props bare_store) = config (this_props empty_language_store)
  /\ language (this_props bare_store) = None
  /\ language (this_props empty_language_store) = Some ""
  /\ rendered bare_store = rendered empty_language_store.
Proof.
  split; [reflexivity|].
  split; [reflexivity|].
  split; [reflexivity|].
  apply (absent_language_renders_as_empty bare_store empty_language_store);
    reflexivity.
Defined.

(** X9: the "High Level Docs" and "Installation Instructions" buttons
    link to the documentation URLs of "quickstart/getting-started" and
    "quickstart/installing-substrate", built by [docUrl] from the
    configuration and the language after its default. *)
Theorem doc_buttons_use_docUrl {CompState World : Type} (s : Store CompState World) :
  let c := config (this_props s) in
  let lang := with_default "" (language (this_props s)) in
  button_href "High Level Docs" (rendered s)
  = Some (AStr (docUrl (baseUrl c) (docsUrl c) lang "quickstart/getting-started"))
  /\ button_href "Installation Instructions" (rendered s)
     = Some (AStr (docUrl (baseUrl c) (docsUrl c) lang
                          "quickstart/installing-substrate")).
Proof.
  intros c lang. unfold button_href.
  rewrite buttons_rendered. fold c. fold lang.
  rewrite !find_button_cons. split; reflexivity.
Qed.

(** X10: the hero banner is handed the site configuration of the page
    unchanged, the language the links use (after its default), the title
    that is also the component's static [title], the tagline, and a
    padding of zero. *)
Theorem banner_props {CompState World : Type} (s : Store CompState World) :
  banner_attr "siteConfig" (rendered s) = Some (AConfig (config (this_props s)))
  /\ banner_attr "language" (rendered s)
     = Some (AStr (with_default "" (language (this_props s))))
  /\ banner_attr "title" (rendered s) = Some (AStr title)
  /\ banner_attr "tagline" (rendered s)
     = Some (AStr "So you wanna build blockchains...")
  /\ banner_attr "padding" (rendered s) = Some (ANum 0).
Proof.
  unfold rendered. rewrite render_result.
  repeat split.
Qed.


(** X12: the target of a button depends on the props only for three
    labels.  For any two components, a label other than "High Level
    Docs" and "Installation Instructions" finds the same target in both
    pages, provided the base URLs agree or the label is not "Back to
    Home". *)
Theorem other_buttons_ignore_config {CompState World : Type}
    (s1 s2 : Store CompState World) (label : string) :
  label <> "High Level Docs" ->
  label <> "Installation Instructions" ->
  baseUrl (config (this_props s1)) = baseUrl (config (this_props s2))
    \/ label <> "Back to Home" ->
  button_href label (rendered s1) = button_href label (rendered s2).
Proof.
  intros Hhld Hii Hbase.
  unfold button_href. rewrite !buttons_rendered.
  rewrite !find_button_cons.
  repeat match goal with
  | |- context [String.eqb ?a label] =>
      destruct (String.eqb_spec a label) as [Heq | Hne]; [ | clear Hne ]
  end;
  try reflexivity;
  try (exfalso; congruence).
  destruct Hbase as [Hb | Hb]; [| exfalso; congruence].
  unfold href_of, button. simpl. rewrite Hb. reflexivity.
Qed.

Lemma other_buttons_ignore_config_witness :
  "Riot Chat" <> "High Level Docs"
  /\ "Riot Chat" <> "Installation Instructions"
  /\ button_href "Riot Chat" (rendered sample_store)
     = button_href "Riot Chat" (rendered other_store).
Proof.
  split; [discriminate|].
  split; [discriminate|].
  apply (other_buttons_ignore_config sample_store other_store "Riot Chat").
  - discriminate.
  - discriminate.
  - right. discriminate.
Defined.
